(** * Locator registry, selector resolver and error/retry envelope

    A shallow embedding of the helper modules of the Cypress framework:

    - [cypress/support/utils/locatorHelper.js]  (locator cache and lookup),
    - the [readYamlFile] task of [cypress.config.js],
    - [cypress/support/utils/errorHandler.js]   (safeClick, validation, retry),
    - [cypress/support/utils/apiHelper.js]      (apiRequest, retryRequest).

    JavaScript values are modelled by the type [value]: the values a YAML or
    JSON document can hold, with integers for numbers.  Objects are finite
    maps of their own properties; the names inherited from
    [Object.prototype] are outside the model (a read never finds them, a
    document never shadows them).

    Cypress chains are modelled as state-passing computations over a [World]
    that holds the module-level locator cache and the trace of the commands
    handed to the runner.  Every operation is one step of the command queue:
    the chain of a call has settled before the next call is made.  What the
    runner, the page, the file system and the server do is taken from a
    [Host]. *)

From stdpp Require Import gmap strings list pretty.
From Equations Require Import Equations.
From Stdlib Require Import ZArith Lia.

Local Open Scope Z_scope.

(** ** JavaScript values *)

#[warnings="-register-all"]
Inductive value : Type :=
| VUndefined
| VNull
| VBool (b : bool)
| VNum (n : Z)
| VStr (s : string)
| VArr (xs : list value)
| VObj (props : gmap string value).

(** [ErrorTypes] of errorHandler.js. *)
Inductive ErrorType : Type :=
| ELEMENT_NOT_FOUND
| TIMEOUT
| API_ERROR
| VALIDATION_ERROR
| AUTHENTICATION_ERROR
| NETWORK_ERROR
| ASSERTION_ERROR
| UNKNOWN.

(** Errors that travel through the failure channel.  [Error] is
    [new Error(message)]; [TestError] is the class of errorHandler.js (its
    [timestamp] field is read from the clock and is not modelled);
    [TypeError] is raised by the engine on a property read of [null] or
    [undefined] or on a call of a missing method; [TaskFailed] is the
    rejection of [cy.task], which carries the error thrown by the task;
    [RequestFailed] is the rejection of [cy.request] on a status outside
    2xx/3xx when [failOnStatusCode] is set; [SyntaxError] is raised by a
    query engine that rejects a selector. *)
Inductive js_error : Type :=
| Error (message : string)
| TestError (message : string) (type : ErrorType) (details : value)
| TypeError (message : string)
| TaskFailed (task : string) (cause : js_error)
| RequestFailed (status : Z)
| SyntaxError (message : string).

(** The [type] property of an error object: only [TestError] has one. *)
Definition error_type (e : js_error) : option ErrorType :=
  match e with
  | TestError _ t _ => Some t
  | _ => None
  end.

(** [error.type || ErrorTypes.UNKNOWN], as computed by [handleError]. *)
Definition errorInfo_type (e : js_error) : ErrorType :=
  default UNKNOWN (error_type e).

(** ** Results of fallible code *)

Inductive outcome (A : Type) : Type :=
| Ok (a : A)
| Throw (e : js_error).
Arguments Ok {A} a.
Arguments Throw {A} e.

#[global] Instance outcome_ret : MRet outcome := @Ok.
#[global] Instance outcome_bind : MBind outcome := fun A B f m =>
  match m with
  | Ok a => f a
  | Throw e => Throw e
  end.

(** ** Primitive operations on values *)

(** ToBoolean. *)
Definition truthy (v : value) : bool :=
  match v with
  | VUndefined | VNull => false
  | VBool b => b
  | VNum n => negb (n =? 0)
  | VStr s => negb (bool_decide (s = ""))
  | VArr _ | VObj _ => true
  end.

Definition nullish (v : value) : bool :=
  match v with
  | VUndefined | VNull => true
  | _ => false
  end.

(** A property name that is a canonical array index. *)
Fixpoint parse_digits (s : string) (acc : nat) : option nat :=
  match s with
  | EmptyString => Some acc
  | String c s' =>
      match Ascii.is_nat c with
      | Some d => parse_digits s' (10 * acc + d)%nat
      | None => None
      end
  end.

Definition array_index (k : string) : option nat :=
  match k with
  | EmptyString => None
  | String c rest =>
      (* no leading zero, except for the index 0 itself *)
      if bool_decide (Ascii.is_nat c = Some 0%nat)
         && negb (bool_decide (rest = ""))
      then None
      else parse_digits k 0
  end.

Fixpoint string_nth (s : string) (i : nat) : option Ascii.ascii :=
  match s, i with
  | EmptyString, _ => None
  | String c _, O => Some c
  | String _ s', S i' => string_nth s' i'
  end.

Definition of_nat_len (n : nat) : value := VNum (Z.of_nat n).

(** [v[k]]: own properties of objects, indices and [length] of arrays and
    strings; a read on [null] or [undefined] throws. *)
Definition js_get (v : value) (k : string) : outcome value :=
  match v with
  | VUndefined | VNull =>
      Throw (TypeError ("Cannot read properties of null or undefined (reading '"
                          +:+ k +:+ "')"))
  | VObj props => Ok (default VUndefined (props !! k))
  | VArr xs =>
      if bool_decide (k = "length") then Ok (of_nat_len (length xs))
      else match array_index k with
           | Some i => Ok (default VUndefined (xs !! i))
           | None => Ok VUndefined
           end
  | VStr s =>
      if bool_decide (k = "length") then Ok (of_nat_len (String.length s))
      else match array_index k with
           | Some i =>
               Ok (match string_nth s i with
                   | Some c => VStr (String c EmptyString)
                   | None => VUndefined
                   end)
           | None => Ok VUndefined
           end
  | VBool _ | VNum _ => Ok VUndefined
  end.

(** [v.hasOwnProperty(k)]. *)
Definition hasOwnProperty (v : value) (k : string) : outcome bool :=
  match v with
  | VUndefined | VNull =>
      Throw (TypeError
               "Cannot read properties of null or undefined (reading 'hasOwnProperty')")
  | VObj props => Ok (bool_decide (is_Some (props !! k)))
  | VArr xs =>
      Ok (bool_decide (k = "length")
          || match array_index k with
             | Some i => bool_decide (i < length xs)%nat
             | None => false
             end)
  | VStr s =>
      Ok (bool_decide (k = "length")
          || match array_index k with
             | Some i => bool_decide (i < String.length s)%nat
             | None => false
             end)
  | VBool _ | VNum _ => Ok false
  end.

(** [a === b].  Two objects (or arrays) are identical only when they are the
    same reference; values built by different parties, such as a literal of
    the test and a parsed response, never are. *)
Definition strict_eq (a b : value) : bool :=
  match a, b with
  | VUndefined, VUndefined | VNull, VNull => true
  | VBool x, VBool y => bool_decide (x = y)
  | VNum x, VNum y => x =? y
  | VStr x, VStr y => bool_decide (x = y)
  | _, _ => false
  end.

Fixpoint join (sep : string) (xs : list string) : string :=
  match xs with
  | [] => ""
  | [x] => x
  | x :: rest => x +:+ sep +:+ join sep rest
  end.

(** ToString, as applied by a template literal. *)
Fixpoint to_string (v : value) : string :=
  match v with
  | VUndefined => "undefined"
  | VNull => "null"
  | VBool true => "true"
  | VBool false => "false"
  | VNum n => pretty n
  | VStr s => s
  | VArr xs =>
      join "," (map (fun x => if nullish x then "" else to_string x) xs)
  | VObj _ => "[object Object]"
  end.

(** The one-character string holding a double quote. *)
Definition dquote : string := String (Ascii.ascii_of_nat 34) EmptyString.

(** [String.prototype.startsWith]. *)
Definition startsWith (s pre : string) : bool := String.prefix pre s.

Fixpoint string_drop (n : nat) (s : string) : string :=
  match n, s with
  | O, _ => s
  | S n', String _ s' => string_drop n' s'
  | S _, EmptyString => EmptyString
  end.

(** [s.replace(pat, rep)] with a string pattern: the leftmost occurrence of
    [pat] is replaced; [rep] holds no [$] pattern at any call site. *)
Fixpoint js_replace (pat rep s : string) : string :=
  if String.prefix pat s then rep +:+ string_drop (String.length pat) s
  else match s with
       | EmptyString => EmptyString
       | String c s' => String c (js_replace pat rep s')
       end.

(** [s.includes(t)]. *)
Fixpoint includes (s t : string) : bool :=
  String.prefix t s
  || match s with
     | EmptyString => false
     | String _ s' => includes s' t
     end.

(** ** The runner, the host and the world *)

(** Options of [cy.request] as the helpers use them. *)
Record request_options : Type := {
  req_method : option string;
  req_url : string;
  req_headers : option (gmap string string);
  req_body : value;
  req_timeout : option Z;
  req_failOnStatusCode : option bool
}.

Record response : Type := {
  status : Z;
  body : value
}.

(** Commands handed to the runner, in the order they are issued.  [EvCall]
    marks one invocation of an action supplied by the caller of [retry]. *)
Inductive event : Type :=
| EvTask (name arg : string)
| EvWait (ms : Z)
| EvRequest (options : request_options)
| EvGet (selector : string) (timeout : option Z)
| EvDocument
| EvClick (force : bool)
| EvCall.

(** What lies outside the helpers: the file system and YAML parser behind the
    [readYamlFile] task, the page under test, and the server answering
    [cy.request].  [css_count] is [$body.find(selector).length]; the query
    engine throws on a string that is no selector.  [xpath_first] is
    [doc.evaluate(..).singleNodeValue !== null].  [respond n o] is the answer
    to the request with options [o] when [n] requests were sent before. *)
Record Host : Type := {
  dirname : string;
  path_resolve : string -> string -> string;
  fs_file : string -> option string;
  yaml_load : string -> outcome value;
  css_count : string -> outcome nat;
  xpath_first : string -> outcome bool;
  body_text : string;
  respond : nat -> request_options -> response
}.

(** [locatorCache] is the module-level object of locatorHelper.js. *)
Record World : Type := {
  locatorCache : gmap string value;
  trace : list event
}.

Definition Cy (A : Type) : Type := World -> outcome A * World.

#[global] Instance Cy_ret : MRet Cy := fun A a w => (Ok a, w).
#[global] Instance Cy_bind : MBind Cy := fun A B f m w =>
  match m w with
  | (Ok a, w') => f a w'
  | (Throw e, w') => (Throw e, w')
  end.

(** A synchronous computation run inside a callback of the chain. *)
Definition lift {A : Type} (r : outcome A) : Cy A := fun w => (r, w).

Definition throw {A : Type} (e : js_error) : Cy A := lift (Throw e).

Definition issue (ev : event) : Cy unit := fun w =>
  (Ok tt, {| locatorCache := locatorCache w; trace := trace w ++ [ev] |}).

Definition cy_wait (ms : Z) : Cy unit := issue (EvWait ms).

(** ** cypress.config.js: the readYamlFile task *)

Definition readYamlFile (h : Host) (filePath : string) : outcome value :=
  let absolutePath := path_resolve h (dirname h) filePath in
  match fs_file h absolutePath with
  | Some fileContents => yaml_load h fileContents
  | None => Throw (Error ("YAML file not found: " +:+ absolutePath))
  end.

(** [cy.task('readYamlFile', filePath)]: the command is issued, the task runs
    in the host process and its result, or its failure, comes back. *)
Definition cy_task_readYamlFile (h : Host) (filePath : string) : Cy value :=
  issue (EvTask "readYamlFile" filePath);;
  match readYamlFile h filePath with
  | Ok v => mret v
  | Throw e => throw (TaskFailed "readYamlFile" e)
  end.

(** ** locatorHelper.js *)

Definition locator_path (pageName : string) : string :=
  "cypress/locators/" +:+ pageName +:+ ".yaml".

(** [locatorCache[pageName] = locators]. *)
Definition cache_store (pageName : string) (locators : value) : Cy unit :=
  fun w => (Ok tt, {| locatorCache := <[pageName := locators]> (locatorCache w);
                      trace := trace w |}).

Definition loadLocators (h : Host) (pageName : string) : Cy value := fun w =>
  let filePath := locator_path pageName in
  let cached := default VUndefined (locatorCache w !! pageName) in
  if truthy cached then (Ok cached, w)
  else (locators ← cy_task_readYamlFile h filePath;
        cache_store pageName locators;;
        mret locators) w.

(** The namespace chosen by
    [locators[`${pageName}Page`] || locators[pageName] || locators]. *)
Definition pageLocators_of (pageName : string) (locators : value)
  : outcome value :=
  a ← js_get locators (pageName +:+ "Page");
  if truthy a then Ok a
  else b ← js_get locators pageName;
       if truthy b then Ok b else Ok locators.

(** The callback of [getLocator]. *)
Definition lookupLocator (pageName elementKey : string) (locators : value)
  : outcome value :=
  pageLocators ← pageLocators_of pageName locators;
  selector ← js_get pageLocators elementKey;
  if negb (truthy selector)
  then Throw (Error ("Locator not found: " +:+ pageName +:+ "." +:+ elementKey))
  else Ok selector.

Definition getLocator (h : Host) (pageName elementKey : string) : Cy value :=
  locators ← loadLocators h pageName;
  lift (lookupLocator pageName elementKey locators).

(** [Object.keys(locatorCache).forEach(key => delete locatorCache[key])]. *)
Definition clearLocatorCache (w : World) : World :=
  {| locatorCache :=
       foldl (fun cache key => delete key cache) (locatorCache w)
             (fst <$> map_to_list (locatorCache w));
     trace := trace w |}.


(** The query command chosen by [resolveSelector]. *)
Inductive query : Type :=
| cy_xpath (xpath : string)
| cy_contains (text : string)
| cy_get (selector : string).

Definition resolveSelector (selector : string) : query :=
  if startsWith selector "xpath=" then
    let xpath := js_replace "xpath=" "" selector in
    cy_xpath xpath
  else if startsWith selector "text=" then
    let text := js_replace "text=" "" selector in
    cy_contains text
  else
    cy_get selector.

(** A selector read from a document is any value; the string methods exist
    on strings only. *)
Definition as_selector (v : value) : outcome string :=
  match v with
  | VStr s => Ok s
  | _ => Throw (TypeError "selector.startsWith is not a function")
  end.

Definition getElement (h : Host) (pageName elementKey : string) : Cy query :=
  selector ← getLocator h pageName elementKey;
  s ← lift (as_selector selector);
  mret (resolveSelector s).

(** The existence test applied by [elementExists] to a resolved selector. *)
Definition selector_exists (h : Host) (selector : string) : outcome bool :=
  if startsWith selector "xpath=" || startsWith selector "text=" then
    (* inside cy.document().then(..) *)
    if startsWith selector "xpath=" then
      let xpath := js_replace "xpath=" "" selector in
      xpath_first h xpath
    else
      let text := js_replace "text=" "" selector in
      Ok (includes (body_text h) text)
  else
    n ← css_count h selector;
    Ok (bool_decide (0 < n)%nat).

Definition elementExists (h : Host) (pageName elementKey : string) : Cy bool :=
  selector ← getLocator h pageName elementKey;
  issue (EvGet "body" None);;
  s ← lift (as_selector selector);
  (if startsWith s "xpath=" || startsWith s "text=" then issue EvDocument
   else mret tt);;
  lift (selector_exists h s).

(** ** errorHandler.js *)

Record click_options : Type := {
  opt_timeout : option Z;
  opt_force : option bool
}.

Definition safeClick (h : Host) (selector : string) (options : click_options)
  : Cy unit :=
  let timeout := default 10000 (opt_timeout options) in
  let force := default false (opt_force options) in
  issue (EvGet "body" None);;
  n ← lift (css_count h selector);
  if bool_decide (0 < n)%nat then
    issue (EvGet selector (Some timeout));;
    issue (EvClick force)
  else
    throw (TestError ("Element not found: " +:+ selector)
                     ELEMENT_NOT_FOUND
                     (VObj {[ "selector" := VStr selector ]})).

(** The [expectations] argument of [validateApiResponse]; [None] is an absent
    property.  [exp_values] lists the entries in the order of
    [Object.entries]. *)
Record expectations : Type := {
  exp_status : option Z;
  exp_properties : option (list string);
  exp_values : option (list (string * value))
}.

(** The three messages pushed onto [errors]. *)
Definition status_message (expected got : Z) : string :=
  "Expected status " +:+ pretty expected +:+ ", got " +:+ pretty got.

Definition missing_message (prop : string) : string :=
  "Missing property: " +:+ prop.

Definition value_message (key : string) (value got : value) : string :=
  "Expected " +:+ key +:+ " to be " +:+ to_string value +:+ ", got "
    +:+ to_string got.

(** [expectations.status && response.status !== expectations.status]. *)
Definition status_errors (ex : expectations) (r : response) : list string :=
  match exp_status ex with
  | Some expected =>
      if negb (expected =? 0) && negb (status r =? expected)
      then [status_message expected (status r)]
      else []
  | None => []
  end.

(** [properties.forEach(prop => ..)], pushing onto [errors]. *)
Fixpoint property_errors (b : value) (props : list string)
  (errors : list string) : outcome (list string) :=
  match props with
  | [] => Ok errors
  | prop :: rest =>
      own ← hasOwnProperty b prop;
      property_errors b rest
        (if negb own then errors ++ [missing_message prop] else errors)
  end.

(** [Object.entries(values).forEach(([key, value]) => ..)]. *)
Fixpoint value_errors (b : value) (entries : list (string * value))
  (errors : list string) : outcome (list string) :=
  match entries with
  | [] => Ok errors
  | (key, value) :: rest =>
      got ← js_get b key;
      value_errors b rest
        (if negb (strict_eq got value)
         then errors ++ [value_message key value got]
         else errors)
  end.

(** The list [errors] as it stands before the final test. *)
Definition collect_errors (r : response) (ex : expectations)
  : outcome (list string) :=
  let errors := status_errors ex r in
  errors ← match exp_properties ex with
           | Some props => property_errors (body r) props errors
           | None => Ok errors
           end;
  match exp_values ex with
  | Some entries => value_errors (body r) entries errors
  | None => Ok errors
  end.

Definition validateApiResponse (r : response) (ex : expectations)
  : outcome unit :=
  errors ← collect_errors r ex;
  if bool_decide (0 < length errors)%nat then
    Throw (TestError ("API validation failed: " +:+ join "; " errors)
                     API_ERROR
                     (VObj {[ "response" := body r;
                              "errors" := VArr (VStr <$> errors) ]}))
  else Ok tt.


Definition is_wait (ev : event) : bool :=
  match ev with EvWait _ => true | _ => false end.

Definition is_request (ev : event) : bool :=
  match ev with EvRequest _ => true | _ => false end.

Definition is_click (ev : event) : bool :=
  match ev with EvClick _ => true | _ => false end.

Definition count (p : event -> bool) (evs : list event) : nat :=
  length (List.filter p evs).

Section Retry.
Context {A : Type}.

(** The action [fn] returns a promise.  [fn n] is the way the promise of one
    invocation settles when [n] invocations were made before it. *)
Variable fn : nat -> outcome A.
Variable delay : Z.



End Retry.


(** ** apiHelper.js *)

Definition API_TIMEOUT : Z := 30000.

Definition default_headers : gmap string string :=
  {[ "Content-Type" := "application/json"; "Accept" := "application/json" ]}.

(** [{...defaultOptions, ...options, headers: {...defaultOptions.headers,
    ...options.headers}}]. *)
Definition mergedOptions (options : request_options) : request_options :=
  {| req_method := req_method options;
     req_url := req_url options;
     req_headers := Some (default ∅ (req_headers options) ∪ default_headers);
     req_body := req_body options;
     req_timeout := Some (default API_TIMEOUT (req_timeout options));
     req_failOnStatusCode :=
       Some (default false (req_failOnStatusCode options)) |}.

(** [cy.request]: with [failOnStatusCode] the command fails on a status
    outside 2xx and 3xx. *)
Definition cy_request (h : Host) (o : request_options) : Cy response := fun w =>
  (let r := respond h (count is_request (trace w)) o in
   issue (EvRequest o);;
   if default true (req_failOnStatusCode o)
      && negb ((200 <=? status r) && (status r <? 400))
   then throw (RequestFailed (status r))
   else mret r) w.

Definition apiRequest (h : Host) (options : request_options) : Cy response :=
  response ← cy_request h (mergedOptions options);
  issue (EvTask "log" ("API Request: " +:+ default "GET" (req_method options)
                         +:+ " " +:+ req_url options));;
  issue (EvTask "log" ("Response Status: " +:+ pretty (status response)));;
  mret response.

Section RetryRequest.
Variable h : Host.
Variable options : request_options.
Variables maxRetries delay : Z.

(** [makeRequest]; the closure variable [attempts] is passed along with the
    value it has before [attempts++]. *)
Equations? makeRequest (attempts : Z) (w : World) : outcome response * World
  by wf (Z.to_nat (maxRetries - attempts)) lt :=
  makeRequest attempts0 w with apiRequest h options w => {
    | (Throw e, w1) => (Throw e, w1);
    | (Ok response, w1)
        with decide (500 <= status response /\ attempts0 + 1 < maxRetries) => {
        | left _ => makeRequest (attempts0 + 1) (cy_wait delay w1).2;
        | right _ => (Ok response, w1) } }.
Proof. lia. Qed.

Definition retryRequest : Cy response := makeRequest 0.

End RetryRequest.

(** ** Observations on runs *)









(** The commands issued by a run of [retry] whose first [k] invocations
    reject: each rejection is followed by one wait, then comes the last
    invocation. *)
Fixpoint retry_events (delay : Z) (k : nat) : list event :=
  match k with
  | O => [EvCall]
  | S k' => EvCall :: EvWait delay :: retry_events delay k'
  end.

(** ** A sample project *)

Definition login_yaml : value :=
  VObj {[ "loginPage" :=
            VObj {[ "url" := VStr "/login";
                    "usernameInput" := VStr "[data-testid='username-input']";
                    "passwordInput" := VStr "#password";
                    "loginButton" := VStr ".btn-login";
                    "submitBtn" := VStr "xpath=//button[@type='submit']";
                    "forgotLink" := VStr "text=Forgot Password";
                    "draft" := VStr "" ]};
          "banner" := VStr "#banner" ]}.

(** A document without nesting: element keys at the root. *)
Definition flat_yaml : value :=
  VObj {[ "searchBox" := VStr "#search"; "logo" := VStr ".logo" ]}.

Definition sample_files (path : string) : option string :=
  if bool_decide (path = "/repo/cypress/locators/login.yaml") then Some "login"
  else if bool_decide (path = "/repo/cypress/locators/home.yaml") then Some "home"
  else None.

Definition sample_yaml (contents : string) : outcome value :=
  if bool_decide (contents = "login") then Ok login_yaml else Ok flat_yaml.

(** A page that shows the text "Submit" in a button of class [btn]; the
    query engine rejects the prefixed selector forms. *)
Definition sample_css (selector : string) : outcome nat :=
  if startsWith selector "xpath=" || startsWith selector "text=" then
    Throw (SyntaxError ("Syntax error, unrecognized expression: " +:+ selector))
  else if bool_decide (selector = ".btn") then Ok 1%nat
  else Ok 0%nat.

Definition sample_host : Host :=
  {| dirname := "/repo";
     path_resolve := fun dir rel => dir +:+ "/" +:+ rel;
     fs_file := sample_files;
     yaml_load := sample_yaml;
     css_count := sample_css;
     xpath_first := fun _ => Ok false;
     body_text := "Submit";
     respond := fun n _ =>
       {| status := if (n <? 2)%nat then 503 else 200; body := VObj ∅ |} |}.

Definition fresh_world : World := {| locatorCache := ∅; trace := [] |}.


Definition example_expectations : expectations :=
  {| exp_status := Some 200;
     exp_properties := Some ["id"];
     exp_values := Some [("name", VStr "X")] |}.

Definition no_options : click_options :=
  {| opt_timeout := None; opt_force := None |}.



Definition get_users : request_options :=
  {| req_method := None;
     req_url := "/users";
     req_headers := None;
     req_body := VUndefined;
     req_timeout := None;
     req_failOnStatusCode := None |}.

Definition get_users_strict : request_options :=
  {| req_method := None;
     req_url := "/users";
     req_headers := None;
     req_body := VUndefined;
     req_timeout := None;
     req_failOnStatusCode := Some true |}.

(** ** Further functions of the helper modules *)

(** [waitForElement] of locatorHelper.js: the query it issues and the
    timeout it passes; ['be.visible'] is then asserted on the result, which
    is the runner's to decide. *)
Definition waitForElement (h : Host) (pageName elementKey : string)
  (timeout : option Z) : Cy (query * Z) :=
  let timeout := default 10000 timeout in
  selector ← getLocator h pageName elementKey;
  s ← lift (as_selector selector);
  if startsWith s "xpath=" then
    let xpath := js_replace "xpath=" "" s in
    mret (cy_xpath xpath, timeout)
  else if startsWith s "text=" then
    let text := js_replace "text=" "" s in
    mret (cy_contains text, timeout)
  else
    mret (cy_get s, timeout).

(** The command [elementExists] of the support file (e2e.js), on a raw
    selector. *)
Definition cmd_elementExists (h : Host) (selector : string) : Cy bool :=
  issue (EvGet "body" None);;
  n ← lift (css_count h selector);
  mret (bool_decide (0 < n)%nat).


(** [apiRequestWithToken] of apiHelper.js; the token goes through a template
    literal. *)
Definition apiRequestWithToken (h : Host) (options : request_options)
  (token : value) : Cy response :=
  let authOptions :=
    {| req_method := req_method options;
       req_url := req_url options;
       req_headers :=
         Some (<["Authorization" := "Bearer " +:+ to_string token]>
                 (default ∅ (req_headers options)));
       req_body := req_body options;
       req_timeout := req_timeout options;
       req_failOnStatusCode := req_failOnStatusCode options |} in
  apiRequest h authOptions.

(** [Cypress.env]: the environment of the run, a map from names to values.
    [storeAuthToken] is [Cypress.env('authToken', token)] and
    [getStoredAuthToken] is [Cypress.env('authToken')]. *)
Definition storeAuthToken (token : value) (env : gmap string value)
  : gmap string value :=
  <["authToken" := token]> env.

Definition getStoredAuthToken (env : gmap string value) : value :=
  default VUndefined (env !! "authToken").

Definition authenticatedRequest (h : Host) (env : gmap string value)
  (options : request_options) : Cy response :=
  let token := getStoredAuthToken env in
  if negb (truthy token)
  then throw (Error "No auth token stored. Please login first.")
  else apiRequestWithToken h options token.

(** The command [apiRequestWithToken] of the support file (e2e.js). *)
Definition cmd_apiRequestWithToken (h : Host) (env : gmap string value)
  (options : request_options) : Cy response :=
  let token := default VUndefined (env !! "authToken") in
  apiRequestWithToken h options token.


(** The test of existence that belongs to a query. *)
Definition probe_of (h : Host) (q : query) : outcome bool :=
  match q with
  | cy_xpath xpath => xpath_first h xpath
  | cy_contains text => Ok (includes (body_text h) text)
  | cy_get selector => n ← css_count h selector; Ok (bool_decide (0 < n)%nat)
  end.



(** *** errorHandler.js: safeType, handleError, withErrorHandling *)

(** Commands issued by the functions below.  [Issued] wraps a command the
    trace of the world has a constructor for; the others are [.clear()],
    [.type(text)], [cy.screenshot(name, {capture})], [cy.log(message)] and
    [cy.setCookie(name, value)]. *)
Inductive command : Type :=
| Issued (ev : event)
| CyClear
| CyType (text : string)
| CyScreenshot (name capture : string)
| CyLog (message : string)
| CySetCookie (name : string) (value : value).

Record type_options : Type := {
  topt_timeout : option Z;
  topt_clear : option bool
}.

(** [safeType]: its outcome and the commands it issues, in order. *)
Definition safeType (h : Host) (selector text : string)
  (options : type_options) : outcome unit * list command :=
  let timeout := default 10000 (topt_timeout options) in
  let clear := default true (topt_clear options) in
  match css_count h selector with
  | Ok n =>
      if bool_decide (0 < n)%nat then
        (Ok tt,
         [Issued (EvGet "body" None); Issued (EvGet selector (Some timeout))]
           ++ (if clear then [CyClear] else [])
           ++ [CyType text])
      else
        (Throw (TestError ("Element not found: " +:+ selector)
                          ELEMENT_NOT_FOUND
                          (VObj {[ "selector" := VStr selector ]})),
         [Issued (EvGet "body" None)])
  | Throw e => (Throw e, [Issued (EvGet "body" None)])
  end.

(** The texts typed and the fields cleared by a list of commands. *)
Definition typed (cmds : list command) : list string :=
  omap (fun c => match c with CyType text => Some text | _ => None end) cmds.

Definition clears (cmds : list command) : nat :=
  length (List.filter (fun c => match c with CyClear => true | _ => false end)
                      cmds).

(** The value of a member of [ErrorTypes]. *)
Definition type_name (t : ErrorType) : string :=
  match t with
  | ELEMENT_NOT_FOUND => "ELEMENT_NOT_FOUND"
  | TIMEOUT => "TIMEOUT"
  | API_ERROR => "API_ERROR"
  | VALIDATION_ERROR => "VALIDATION_ERROR"
  | AUTHENTICATION_ERROR => "AUTHENTICATION_ERROR"
  | NETWORK_ERROR => "NETWORK_ERROR"
  | ASSERTION_ERROR => "ASSERTION_ERROR"
  | UNKNOWN => "UNKNOWN"
  end.

(** [error.message]; the text of an error made by the runner is the
    runner's. *)
Definition message_of (runner_message : js_error -> string) (e : js_error)
  : string :=
  match e with
  | Error m | TestError m _ _ | TypeError m | SyntaxError m => m
  | TaskFailed _ _ | RequestFailed _ => runner_message e
  end.

Definition newline : string := String (Ascii.ascii_of_nat 10) EmptyString.

(** One reading of the clock: [new Date().toISOString()] and [Date.now()]. *)
Record Clock : Type := {
  clock_iso : string;
  clock_ms : Z
}.

(** [handleError]: six lines for the log, one full page screenshot, then the
    error is thrown again or not. *)
Definition handleError (runner_message : js_error -> string) (clock : Clock)
  (error : js_error) (context : string) (shouldThrow : bool)
  : outcome unit * list command :=
  let errorInfo_message := message_of runner_message error in
  let errorInfo_type := default UNKNOWN (error_type error) in
  let errorInfo_timestamp := clock_iso clock in
  (if shouldThrow then Throw error else Ok tt,
   [Issued (EvTask "log" (newline +:+ "========== ERROR =========="));
    Issued (EvTask "log" ("Context: " +:+ context));
    Issued (EvTask "log" ("Type: " +:+ type_name errorInfo_type));
    Issued (EvTask "log" ("Message: " +:+ errorInfo_message));
    Issued (EvTask "log" ("Timestamp: " +:+ errorInfo_timestamp));
    Issued (EvTask "log" ("===========================" +:+ newline));
    CyScreenshot ("error-" +:+ context +:+ "-" +:+ pretty (clock_ms clock))
                 "fullPage"]).

Record handling_options : Type := {
  hopt_shouldThrow : option bool;
  hopt_retries : option Z;
  hopt_retryDelay : option Z
}.

Section WithErrorHandling.
Context {A : Type}.
Variable runner_message : js_error -> string.
Variable clock : Clock.

(** [action n] is what the synchronous call [action()] does when [n] calls
    were made before it: it returns, or it throws. *)
Variable action : nat -> outcome A.
Variable context : string.
Variable shouldThrow : bool.
Variables retries retryDelay : Z.

(** [executeAction]; [attempts] is passed along with the value it has before
    [attempts++], which is also the number of calls made so far.  The result
    [None] is the [undefined] returned once [handleError] has swallowed the
    error. *)
Equations? executeAction (attempts : Z) (calls : nat)
  : outcome (option A) * list command
  by wf (Z.to_nat (retries - attempts)) lt :=
  executeAction attempts0 calls with action calls => {
    | Ok a => (Ok (Some a), [Issued EvCall]);
    | Throw error with decide (attempts0 + 1 <= retries) => {
        | left _ =>
            let rest := executeAction (attempts0 + 1) (S calls) in
            (rest.1, Issued EvCall :: Issued (EvWait retryDelay) :: rest.2);
        | right _ =>
            let handled :=
              handleError runner_message clock error context shouldThrow in
            (match handled.1 with
             | Ok _ => Ok None
             | Throw e => Throw e
             end,
             Issued EvCall :: handled.2) } }.
Proof. lia. Qed.

End WithErrorHandling.

Definition withErrorHandling {A : Type} (runner_message : js_error -> string)
  (clock : Clock) (action : nat -> outcome A) (context : string)
  (options : handling_options) : outcome (option A) * list command :=
  let shouldThrow := default true (hopt_shouldThrow options) in
  let retries := default 0 (hopt_retries options) in
  let retryDelay := default 1000 (hopt_retryDelay options) in
  executeAction runner_message clock action context shouldThrow retries
                retryDelay 0 0.

(** *** apiHelper.js: assertions on responses, getAuthToken *)

(** A failed assertion of the assertion library: [expect(actual).to.eq(expected)]
    compares with [===]; [expect(target).to.have.property(name)] fails on a
    target without the property, and on a target that is [null] or
    [undefined]. *)
Inductive assertion_failure : Type :=
| ExpectedEq (actual expected : value)
| ExpectedProperty (target : value) (name : string).

(** What stops a callback: an error thrown, or a failed assertion. *)
Inductive failure : Type :=
| Raised (e : js_error)
| Asserted (a : assertion_failure).

Inductive verdict (A : Type) : Type :=
| Pass (a : A)
| Fail (f : failure).
Arguments Pass {A} a.
Arguments Fail {A} f.

#[global] Instance verdict_ret : MRet verdict := @Pass.
#[global] Instance verdict_bind : MBind verdict := fun A B f m =>
  match m with
  | Pass a => f a
  | Fail x => Fail x
  end.

Definition of_outcome {A : Type} (r : outcome A) : verdict A :=
  match r with
  | Ok a => Pass a
  | Throw e => Fail (Raised e)
  end.

Definition expect_eq (actual expected : value) : verdict unit :=
  if strict_eq actual expected then Pass tt
  else Fail (Asserted (ExpectedEq actual expected)).


Definition validateStatus (r : response) (expectedStatus : Z) : verdict unit :=
  expect_eq (VNum (status r)) (VNum expectedStatus).




(** [post(url, body = {}, headers = {})]; a default applies to an argument
    that is [undefined]. *)
Definition post (h : Host) (url : string) (body : value)
  (headers : option (gmap string string)) : Cy response :=
  apiRequest h {| req_method := Some "POST";
                  req_url := url;
                  req_headers := Some (default ∅ headers);
                  req_body := match body with
                              | VUndefined => VObj ∅
                              | _ => body
                              end;
                  req_timeout := None;
                  req_failOnStatusCode := None |}.

(** The callback of [getAuthToken]. *)
Definition token_of_response (r : response) : verdict value :=
  validateStatus r 200;;
  of_outcome
    (a ← js_get (body r) "token";
     token ← (if truthy a then Ok a
              else b ← js_get (body r) "accessToken";
                   if truthy b then Ok b
                   else js_get (body r) "access_token");
     if negb (truthy token)
     then Throw (Error "No token found in login response")
     else Ok token).

Definition getAuthToken (h : Host) (loginUrl : string) (credentials : value)
  (w : World) : verdict value * World :=
  match post h loginUrl credentials None w with
  | (Ok r, w') => (token_of_response r, w')
  | (Throw e, w') => (Fail (Raised e), w')
  end.

(** *** e2e.js: the callback of the loginViaApi command *)

(** [logStep] of errorHandler.js. *)
Definition logStep (stepDescription : string) : list command :=
  [Issued (EvTask "log" (newline +:+ "[STEP] " +:+ stepDescription));
   CyLog ("**" +:+ stepDescription +:+ "**")].

(** What the command [loginViaApi] does with the response of its request:
    the outcome, the environment afterwards and the commands issued. *)
Definition loginViaApi_then (r : response) (env : gmap string value)
  : outcome response * gmap string value * list command :=
  if status r =? 200 then
    match (a ← js_get (body r) "token";
           if truthy a then Ok a else js_get (body r) "accessToken") with
    | Ok token =>
        if truthy token then
          (Ok r, <["authToken" := token]> env,
           CySetCookie "auth_token" token :: logStep "API Login successful")
        else (Ok r, env, logStep "API Login successful")
    | Throw e => (Throw e, env, [])
    end
  else
    (Throw (Error ("Login failed with status: " +:+ pretty (status r))),
     env, []).

(** * Properties *)

(** ** Strings *)

Lemma prefix_app (pre s : string) : String.prefix pre (pre +:+ s) = true.
Proof.
  induction pre as [|c pre IH]; simpl.
  - by destruct s.
  - destruct (Ascii.ascii_dec c c); [exact IH | congruence].
Qed.

Lemma string_drop_app (pre s : string) :
  string_drop (String.length pre) (pre +:+ s) = s.
Proof. induction pre as [|c pre IH]; simpl; [done | exact IH]. Qed.

Lemma prefix_split (pre s : string) :
  String.prefix pre s = true ->
  s = pre +:+ string_drop (String.length pre) s.
Proof.
  revert s. induction pre as [|c pre IH]; intros s Hp; simpl in *.
  - done.
  - destruct s as [|d s]; [done |]. simpl in Hp.
    destruct (Ascii.ascii_dec c d) as [-> |]; [| done].
    change (String d s
            = String d (pre +:+ string_drop (String.length pre) s)).
    f_equal. by apply IH.
Qed.

Lemma js_replace_prefix (pat s : string) :
  js_replace pat "" (pat +:+ s) = s.
Proof.
  destruct pat as [|c pat].
  - destruct s; reflexivity.
  - change (js_replace (String c pat) "" (String c pat +:+ s))
      with (if String.prefix (String c pat) (String c pat +:+ s)
            then "" +:+ string_drop (String.length (String c pat))
                                    (String c pat +:+ s)
            else String c (js_replace (String c pat) "" (pat +:+ s))).
    rewrite prefix_app. by rewrite string_drop_app.
Qed.

(** ** Selector resolver *)

Lemma resolveSelector_xpath (payload : string) :
  resolveSelector ("xpath=" +:+ payload) = cy_xpath payload.
Proof.
  unfold resolveSelector, startsWith.
  rewrite prefix_app. by rewrite js_replace_prefix.
Qed.

Lemma resolveSelector_text (payload : string) :
  resolveSelector ("text=" +:+ payload) = cy_contains payload.
Proof.
  unfold resolveSelector, startsWith.
  rewrite (prefix_app "text=" payload).
  replace (String.prefix "xpath=" ("text=" +:+ payload)) with false
    by reflexivity.
  by rewrite js_replace_prefix.
Qed.

Lemma resolveSelector_css (selector : string) :
  startsWith selector "xpath=" = false ->
  startsWith selector "text=" = false ->
  resolveSelector selector = cy_get selector.
Proof. unfold resolveSelector. by intros -> ->. Qed.

(** C4.  [resolveSelector] classifies every string, and only by its prefix:
    a string ["xpath=" ++ p] is an XPath query for [p], a string
    ["text=" ++ p] is a text query for [p], and every other string is a CSS
    query for the whole string.  The three selectors of the specification
    are classified as it says. *)
Theorem resolveSelector_total_classification (selector : string) :
  ((exists p, selector = "xpath=" +:+ p /\ resolveSelector selector = cy_xpath p)
   \/ (exists p, selector = "text=" +:+ p
                 /\ resolveSelector selector = cy_contains p)
   \/ (startsWith selector "xpath=" = false
       /\ startsWith selector "text=" = false
       /\ resolveSelector selector = cy_get selector))
  /\ (forall p, resolveSelector ("xpath=" +:+ p) = cy_xpath p)
  /\ (forall p, resolveSelector ("text=" +:+ p) = cy_contains p)
  /\ resolveSelector ("xpath=//div[@id=" +:+ dquote +:+ "x" +:+ dquote +:+ "]")
     = cy_xpath ("//div[@id=" +:+ dquote +:+ "x" +:+ dquote +:+ "]")
  /\ resolveSelector "text=Submit" = cy_contains "Submit"
  /\ resolveSelector ".btn-primary" = cy_get ".btn-primary".
Proof.
  split; [| repeat split; auto using resolveSelector_xpath, resolveSelector_text].
  destruct (startsWith selector "xpath=") eqn:Hx.
  - left. exists (string_drop 6 selector).
    apply prefix_split in Hx. split; [exact Hx |].
    rewrite Hx at 1. apply resolveSelector_xpath.
  - destruct (startsWith selector "text=") eqn:Ht.
    + right; left. exists (string_drop 5 selector).
      apply prefix_split in Ht. split; [exact Ht |].
      rewrite Ht at 1. apply resolveSelector_text.
    + right; right. by rewrite resolveSelector_css.
Qed.

(** ** Traces *)

Lemma count_app (p : event -> bool) (l1 l2 : list event) :
  count p (l1 ++ l2) = (count p l1 + count p l2)%nat.
Proof. unfold count. by rewrite List.filter_app, length_app. Qed.






(** ** Locator registry *)












Lemma clearLocatorCache_trace (w : World) :
  trace (clearLocatorCache w) = trace w.
Proof. reflexivity. Qed.





















(** ** safeClick *)

Lemma safeClick_unfold (h : Host) (selector : string) (options : click_options)
  (w : World) :
  safeClick h selector options w =
    let w1 := {| locatorCache := locatorCache w;
                 trace := trace w ++ [EvGet "body" None] |} in
    match css_count h selector with
    | Ok n =>
        if bool_decide (0 < n)%nat then
          (Ok tt,
           {| locatorCache := locatorCache w;
              trace := trace w
                       ++ [EvGet "body" None;
                           EvGet selector
                             (Some (default 10000 (opt_timeout options)));
                           EvClick (default false (opt_force options))] |})
        else
          (Throw (TestError ("Element not found: " +:+ selector)
                            ELEMENT_NOT_FOUND
                            (VObj {[ "selector" := VStr selector ]})), w1)
    | Throw e => (Throw e, w1)
    end.
Proof.
  unfold safeClick, mbind, Cy_bind, issue, lift, throw. simpl.
  destruct (css_count h selector) as [n | e]; [| done].
  case_bool_decide; [| done]. simpl. by rewrite <- !app_assoc.
Qed.

(** C8, as the code has it.  [safeClick] probes with a CSS query of the raw
    selector against the page body.  When the query finds nothing, it raises
    [ELEMENT_NOT_FOUND] at once: no click, no wait and no second attempt.
    When the query finds an element, it issues one query of the selector with
    the timeout and one click with the force flag (10000 and false when the
    options leave them out).  When the query engine rejects the selector, its
    error is raised and nothing is clicked.  For a selector without the
    [xpath=] or [text=] prefix the probe is the existence test of the
    resolver; prefixed selectors are not interpreted. *)
Theorem safeClick_probe_then_click
  (h : Host) (selector : string) (options : click_options) (w : World) :
  let timeout := default 10000 (opt_timeout options) in
  let force := default false (opt_force options) in
  let probed := {| locatorCache := locatorCache w;
                   trace := trace w ++ [EvGet "body" None] |} in
  (forall n, css_count h selector = Ok n -> (0 < n)%nat ->
     safeClick h selector options w
     = (Ok tt,
        {| locatorCache := locatorCache w;
           trace := trace w ++ [EvGet "body" None;
                                EvGet selector (Some timeout);
                                EvClick force] |}))
  /\ (css_count h selector = Ok 0%nat ->
      safeClick h selector options w
      = (Throw (TestError ("Element not found: " +:+ selector)
                          ELEMENT_NOT_FOUND
                          (VObj {[ "selector" := VStr selector ]})), probed))
  /\ (forall e, css_count h selector = Throw e ->
      safeClick h selector options w = (Throw e, probed))
  /\ (startsWith selector "xpath=" = false ->
      startsWith selector "text=" = false ->
      selector_exists h selector
      = (n ← css_count h selector; Ok (bool_decide (0 < n)%nat))).
Proof.
  intros timeout force probed. rewrite safeClick_unfold. repeat split.
  - intros n -> Hn. by rewrite bool_decide_eq_true_2.
  - by intros ->.
  - by intros e ->.
  - unfold selector_exists. by intros -> ->.
Qed.

Lemma safeClick_probe_then_click_witness :
  (safeClick sample_host ".btn" {| opt_timeout := Some 500;
                                    opt_force := Some true |} fresh_world).2
  = {| locatorCache := ∅;
       trace := [EvGet "body" None; EvGet ".btn" (Some 500); EvClick true] |}
  /\ (safeClick sample_host "#gone" no_options fresh_world).1
     = Throw (TestError "Element not found: #gone" ELEMENT_NOT_FOUND
                        (VObj {[ "selector" := VStr "#gone" ]}))
  /\ selector_exists sample_host ".btn" = Ok true.
Proof.
  pose proof (safeClick_probe_then_click sample_host ".btn"
                {| opt_timeout := Some 500; opt_force := Some true |}
                fresh_world) as (Hclick & _ & _ & _).
  pose proof (safeClick_probe_then_click sample_host "#gone" no_options
                fresh_world) as (_ & Hgone & _ & _).
  pose proof (safeClick_probe_then_click sample_host ".btn" no_options
                fresh_world) as (_ & _ & _ & Hprobe).
  split; [| split].
  - rewrite (Hclick 1%nat eq_refl); [reflexivity | lia].
  - by rewrite (Hgone eq_refl).
  - by rewrite (Hprobe eq_refl eq_refl).
Defined.

(** The claim C8 fails as it is stated: on the sample page the resolver's
    existence test finds the element of [text=Submit], yet [safeClick]
    clicks nothing, and what it raises is not [ELEMENT_NOT_FOUND]. *)
Lemma safeClick_not_resolver_exists :
  selector_exists sample_host "text=Submit" = Ok true
  /\ count is_click
       (trace (safeClick sample_host "text=Submit" no_options fresh_world).2)
     = 0%nat
  /\ (safeClick sample_host "text=Submit" no_options fresh_world).1
     = Throw (SyntaxError
                "Syntax error, unrecognized expression: text=Submit").
Proof. repeat split. Qed.

(** ** validateApiResponse *)








(** ** retry *)









(** ** retryRequest *)

Lemma apiRequest_ok (h : Host) (options : request_options) (w : World) :
  req_failOnStatusCode options <> Some true ->
  let r := respond h (count is_request (trace w)) (mergedOptions options) in
  apiRequest h options w
  = (Ok r,
     {| locatorCache := locatorCache w;
        trace := trace w
                 ++ [EvRequest (mergedOptions options);
                     EvTask "log" ("API Request: "
                                     +:+ default "GET" (req_method options)
                                     +:+ " " +:+ req_url options);
                     EvTask "log" ("Response Status: "
                                     +:+ pretty (status r))] |}).
Proof.
  intros Hf r. unfold apiRequest, cy_request, mbind, Cy_bind, issue.
  assert (default false (req_failOnStatusCode options) = false) as Hd.
  { destruct (req_failOnStatusCode options) as [[|] |]; done. }
  simpl. rewrite Hd. simpl. by rewrite <- !app_assoc.
Qed.

Lemma makeRequest_step (h : Host) (options : request_options)
  (maxRetries delay attempts : Z) (w : World) :
  makeRequest h options maxRetries delay attempts w =
    match apiRequest h options w with
    | (Throw e, w1) => (Throw e, w1)
    | (Ok response, w1) =>
        if decide (500 <= status response /\ attempts + 1 < maxRetries)
        then makeRequest h options maxRetries delay (attempts + 1)
               (cy_wait delay w1).2
        else (Ok response, w1)
    end.
Proof.
  etrans; [apply makeRequest_unfold_eq |]. unfold makeRequest_unfold.
  destruct (apiRequest h options w) as [[response | e] w1]; simpl; [| done].
  by destruct (decide (500 <= status response /\ attempts + 1 < maxRetries)).
Qed.

Lemma count_request_round (evs : list event) (o : request_options)
  (m1 m2 : string) (delay : Z) :
  count is_request (evs ++ [EvRequest o; EvTask "log" m1; EvTask "log" m2])
  = S (count is_request evs)
  /\ count is_request
       ((evs ++ [EvRequest o; EvTask "log" m1; EvTask "log" m2])
          ++ [EvWait delay])
     = S (count is_request evs)
  /\ count is_wait (evs ++ [EvRequest o; EvTask "log" m1; EvTask "log" m2])
     = count is_wait evs
  /\ count is_wait
       ((evs ++ [EvRequest o; EvTask "log" m1; EvTask "log" m2])
          ++ [EvWait delay])
     = S (count is_wait evs).
Proof. rewrite !count_app. unfold count. simpl. lia. Qed.

(** The loop of [retryRequest], from any value of [attempts]. *)
Lemma makeRequest_spec (h : Host) (options : request_options)
  (maxRetries delay : Z) (fuel : nat) :
  req_failOnStatusCode options <> Some true ->
  forall (attempts : Z) (w : World),
    (Z.to_nat (maxRetries - attempts) <= fuel)%nat ->
    exists (n : nat) (w' : World),
      makeRequest h options maxRetries delay attempts w
      = (Ok (respond h (count is_request (trace w) + n)
                     (mergedOptions options)), w')
      /\ count is_request (trace w') = (count is_request (trace w) + S n)%nat
      /\ count is_wait (trace w') = (count is_wait (trace w) + n)%nat
      /\ attempts + Z.of_nat (S n) <= Z.max (attempts + 1) maxRetries
      /\ (forall i, (i < n)%nat ->
            500 <= status (respond h (count is_request (trace w) + i)
                                   (mergedOptions options)))
      /\ (status (respond h (count is_request (trace w) + n)
                          (mergedOptions options)) < 500
          \/ attempts + Z.of_nat (S n) = Z.max (attempts + 1) maxRetries).
Proof.
  intros Hf. induction fuel as [|fuel IH]; intros attempts w Hfuel.
  - rewrite makeRequest_step, (apiRequest_ok h options w Hf). cbv zeta.
    rewrite decide_False by lia.
    exists 0%nat. eexists. split; [by rewrite Nat.add_0_r |]. simpl.
    destruct (count_request_round (trace w) (mergedOptions options)
      ("API Request: " +:+ default "GET" (req_method options) +:+ " "
         +:+ req_url options)
      ("Response Status: "
         +:+ pretty (status (respond h (count is_request (trace w))
                                     (mergedOptions options)))) delay)
      as (Hr & _ & Hw & _).
    rewrite Hr, Hw. repeat split; lia.
  - rewrite makeRequest_step, (apiRequest_ok h options w Hf). cbv zeta.
    destruct (count_request_round (trace w) (mergedOptions options)
      ("API Request: " +:+ default "GET" (req_method options) +:+ " "
         +:+ req_url options)
      ("Response Status: "
         +:+ pretty (status (respond h (count is_request (trace w))
                                     (mergedOptions options)))) delay)
      as (Hr & Hr' & Hw & Hw').
    destruct (decide (500 <= status (respond h (count is_request (trace w))
                                             (mergedOptions options))
                      /\ attempts + 1 < maxRetries)) as [[Hs Ha] | Hstop].
    + destruct (IH (attempts + 1)
                  (cy_wait delay
                     {| locatorCache := locatorCache w;
                        trace := trace w
                          ++ [EvRequest (mergedOptions options);
                              EvTask "log"
                                ("API Request: "
                                   +:+ default "GET" (req_method options)
                                   +:+ " " +:+ req_url options);
                              EvTask "log"
                                ("Response Status: "
                                   +:+ pretty
                                         (status
                                            (respond h
                                               (count is_request (trace w))
                                               (mergedOptions options))))] |}).2)
        as (n & w' & Hrun & Hreq & Hwait & Hbound & Hretried & Hlast);
        [lia |].
      simpl in Hrun, Hreq, Hwait, Hretried, Hlast.
      rewrite Hr' in Hrun, Hreq, Hretried, Hlast. rewrite Hw' in Hwait.
      exists (S n), w'.
      replace (count is_request (trace w) + S n)%nat
        with (S (count is_request (trace w)) + n)%nat by lia.
      split; [exact Hrun |]. split; [lia |]. split; [lia |].
      split; [lia |]. split.
      * intros [|i] Hi; [by rewrite Nat.add_0_r |].
        replace (count is_request (trace w) + S i)%nat
          with (S (count is_request (trace w)) + i)%nat by lia.
        apply Hretried. lia.
      * destruct Hlast as [? | ?]; [by left | right; lia].
    + exists 0%nat. eexists. split; [by rewrite Nat.add_0_r |]. simpl.
      rewrite Hr, Hw, Nat.add_0_r. repeat split; try lia.
      rewrite Nat.add_0_r.
      destruct (decide (status (respond h (count is_request (trace w))
                                        (mergedOptions options)) < 500));
        [by left | right; lia].
Qed.

(** C10, as the code has it.  Provided the caller does not switch
    [failOnStatusCode] on, [retryRequest] never raises: it returns the
    response of its last request, whatever its status.  It sends a request,
    and sends another one, after one wait, only while the status is at least
    500 and the number of requests sent is below [maxRetries].  So it sends
    at least one request and at most [max 1 maxRetries]; every response but
    the last has a status of at least 500; and the last one either has a
    status below 500 or is the one that uses up the bound. *)
Theorem retryRequest_returns_last_response
  (h : Host) (options : request_options) (maxRetries delay : Z) (w : World) :
  req_failOnStatusCode options <> Some true ->
  let c := count is_request (trace w) in
  let answer := fun i : nat => respond h (c + i)%nat (mergedOptions options) in
  exists (n : nat) (w' : World),
    retryRequest h options maxRetries delay w = (Ok (answer n), w')
    /\ count is_request (trace w') = (c + S n)%nat
    /\ count is_wait (trace w') = (count is_wait (trace w) + n)%nat
    /\ Z.of_nat (S n) <= Z.max 1 maxRetries
    /\ (forall i, (i < n)%nat -> 500 <= status (answer i))
    /\ (status (answer n) < 500 \/ Z.of_nat (S n) = Z.max 1 maxRetries).
Proof.
  intros Hf c answer.
  destruct (makeRequest_spec h options maxRetries delay (Z.to_nat maxRetries)
              Hf 0 w) as (n & w' & Hrun & Hreq & Hwait & Hbound & Hretried
                          & Hlast); [lia |].
  exists n, w'. repeat split; try done.
Qed.

Lemma retryRequest_returns_last_response_witness :
  req_failOnStatusCode get_users <> Some true
  /\ exists (n : nat) (w' : World),
       retryRequest sample_host get_users 2 1000 fresh_world
       = (Ok (respond sample_host n (mergedOptions get_users)), w')
       /\ count is_request (trace w') = S n
       /\ Z.of_nat (S n) <= 2.
Proof.
  split; [discriminate |].
  destruct (retryRequest_returns_last_response sample_host get_users 2 1000
              fresh_world) as (n & w' & Hrun & Hreq & _ & Hbound & _);
    [discriminate |].
  exists n, w'. split; [exact Hrun |]. split; [exact Hreq |]. lia.
Defined.

(** The claim C10 fails as it is stated: with [maxRetries = 0] one request
    is sent all the same, which is more than [maxRetries]; and with
    [failOnStatusCode] switched on by the caller a 503 response makes
    [retryRequest] raise. *)
Lemma retryRequest_first_request_unconditional :
  count is_request
    (trace (retryRequest sample_host get_users 0 1000 fresh_world).2) = 1%nat
  /\ (retryRequest sample_host get_users_strict 3 1000 fresh_world).1
     = Throw (RequestFailed 503).
Proof. split; reflexivity. Qed.

(** * Further properties *)

(** ** Locator registry: failures, falsy documents, clearing *)














(** ** Selector resolver: the dispatches agree *)

(** X7.  [waitForElement] and [getElement] choose the same query for every
    page, key and world: they fail together, with the same error, and when
    they succeed [waitForElement] issues the query of [getElement] with its
    timeout (10000 when none is given). *)
Theorem waitForElement_same_query_as_getElement
  (h : Host) (pageName elementKey : string) (timeout : option Z) (w : World) :
  waitForElement h pageName elementKey timeout w
  = match getElement h pageName elementKey w with
    | (Ok q, w') => (Ok (q, default 10000 timeout), w')
    | (Throw e, w') => (Throw e, w')
    end.
Proof.
  unfold waitForElement, getElement, mbind, Cy_bind, lift, mret, Cy_ret.
  destruct (getLocator h pageName elementKey w) as [[selector | e] w'];
    [| done].
  destruct (as_selector selector) as [s | e]; [| done].
  unfold resolveSelector.
  destruct (startsWith s "xpath="); [done |].
  by destruct (startsWith s "text=").
Qed.

Lemma selector_exists_probe_of (h : Host) (s : string) :
  selector_exists h s = probe_of h (resolveSelector s).
Proof.
  unfold selector_exists, resolveSelector.
  destruct (startsWith s "xpath="); [done |].
  by destruct (startsWith s "text=").
Qed.

(** X8.  [elementExists] tests the very query [getElement] would issue for
    the same page and key: XPath selectors by the XPath of the stripped
    payload, text selectors by the stripped text, the others by CSS.  When
    the locator does not resolve, or is no string, both fail with the same
    error: [elementExists] is no probe that never throws. *)
Theorem elementExists_probes_query_of_getElement
  (h : Host) (pageName elementKey : string) (w : World) :
  (elementExists h pageName elementKey w).1
  = match (getElement h pageName elementKey w).1 with
    | Ok q => probe_of h q
    | Throw e => Throw e
    end.
Proof.
  unfold elementExists, getElement, mbind, Cy_bind, lift, mret, Cy_ret, issue.
  destruct (getLocator h pageName elementKey w) as [[selector | e] w'];
    [| done].
  simpl. destruct (as_selector selector) as [s | e]; [| done]. simpl.
  rewrite selector_exists_probe_of.
  by destruct (startsWith s "xpath=" || startsWith s "text=").
Qed.

Lemma includes_unfold (s t : string) :
  includes s t
  = String.prefix t s
    || match s with
       | EmptyString => false
       | String _ s' => includes s' t
       end.
Proof. by destruct s. Qed.

Lemma includes_spec (s t : string) :
  includes s t = true <-> exists a b, s = a +:+ t +:+ b.
Proof.
  split.
  - induction s as [|c s IH]; rewrite includes_unfold; intros H.
    + apply orb_true_iff in H as [H | H]; [| done].
      exists "", (string_drop (String.length t) ""). by apply prefix_split.
    + apply orb_true_iff in H as [H | H].
      * exists "", (string_drop (String.length t) (String c s)).
        by apply prefix_split.
      * destruct (IH H) as (a & b & ->). by exists (String c a), b.
  - intros (a & b & ->). induction a as [|c a IH].
    + change ("" +:+ t +:+ b) with (t +:+ b).
      by rewrite includes_unfold, prefix_app.
    + change (String c a +:+ t +:+ b) with (String c (a +:+ t +:+ b)).
      rewrite includes_unfold, IH. apply orb_true_r.
Qed.

(** X9.  A text selector exists exactly when its literal occurs somewhere in
    the text of the body: a substring test, not a match of a whole element;
    in particular the empty literal always exists. *)
Theorem text_selector_exists_iff_substring (h : Host) (text : string) :
  (selector_exists h ("text=" +:+ text) = Ok true
   <-> exists a b, body_text h = a +:+ text +:+ b)
  /\ selector_exists h "text=" = Ok true.
Proof.
  assert (Hrun : forall t, selector_exists h ("text=" +:+ t)
                           = Ok (includes (body_text h) t)).
  { intros t. rewrite selector_exists_probe_of. by rewrite resolveSelector_text. }
  split.
  - rewrite Hrun, <- includes_spec. split; [by intros [= ->] | by intros ->].
  - change "text=" with ("text=" +:+ ""). rewrite Hrun. f_equal.
    apply includes_spec. exists "", (body_text h). by destruct (body_text h).
Qed.

(** ** safeClick and the elementExists command *)

(** X10.  The probe of [safeClick] is the command [elementExists] of the
    support file: [safeClick] clicks, exactly once, when the command answers
    true, raises [ELEMENT_NOT_FOUND] when it answers false, and fails with
    the error of the command, a selector the query engine rejects, when the
    command fails. *)
Theorem safeClick_follows_elementExists_command
  (h : Host) (selector : string) (options : click_options) (w : World) :
  match cmd_elementExists h selector w with
  | (Ok true, w1) =>
      exists w2,
        safeClick h selector options w = (Ok tt, w2)
        /\ count is_click (trace w2) = S (count is_click (trace w))
  | (Ok false, w1) =>
      safeClick h selector options w
      = (Throw (TestError ("Element not found: " +:+ selector)
                          ELEMENT_NOT_FOUND
                          (VObj {[ "selector" := VStr selector ]})), w1)
  | (Throw e, w1) => safeClick h selector options w = (Throw e, w1)
  end.
Proof.
  rewrite safeClick_unfold.
  unfold cmd_elementExists, mbind, Cy_bind, issue, lift, mret, Cy_ret. simpl.
  destruct (css_count h selector) as [n | e]; simpl; [| done].
  case_bool_decide; [| done].
  eexists. split; [done |]. simpl.
  rewrite !count_app. unfold count. simpl. lia.
Qed.

(** ** retry: every action, every bound *)



(** ** validateApiResponse: order of the messages, bodies that are null *)





(** X13.  With a body that is [null], the first listed property, or the
    first entry of values when no property is listed, makes
    [validateApiResponse] fail with a [TypeError]: not an [API_ERROR], and a
    status mismatch found before it is lost.  With nothing to look up in the
    body, the body is never read and only the status decides. *)
Theorem validateApiResponse_null_body (r : response) (ex : expectations) :
  nullish (body r) = true ->
  (forall prop rest,
     exp_properties ex = Some (prop :: rest) ->
     exists message, validateApiResponse r ex = Throw (TypeError message))
  /\ (forall entry rest,
        exp_properties ex = None \/ exp_properties ex = Some [] ->
        exp_values ex = Some (entry :: rest) ->
        exists message, validateApiResponse r ex = Throw (TypeError message))
  /\ (exp_properties ex = None \/ exp_properties ex = Some [] ->
      exp_values ex = None \/ exp_values ex = Some [] ->
      validateApiResponse r ex
      = match status_errors ex r with
        | [] => Ok tt
        | errors =>
            Throw (TestError ("API validation failed: " +:+ join "; " errors)
                             API_ERROR
                             (VObj {[ "response" := body r;
                                      "errors" := VArr (VStr <$> errors) ]}))
        end).
Proof.
  intros Hnull. unfold validateApiResponse, collect_errors.
  split; [| split].
  - intros prop rest ->. simpl.
    destruct (body r); try done; simpl; eauto.
  - intros [k v] rest [-> | ->] ->; simpl;
      destruct (body r); try done; simpl; eauto.
  - intros [-> | ->] [-> | ->]; simpl;
      by destruct (status_errors ex r).
Qed.

Lemma validateApiResponse_null_body_witness :
  exists message,
    validateApiResponse {| status := 404; body := VNull |} example_expectations
    = Throw (TypeError message).
Proof.
  exact (proj1 (validateApiResponse_null_body
                  {| status := 404; body := VNull |} example_expectations
                  eq_refl) "id" [] eq_refl).
Defined.

(** ** apiHelper: merged options and tokens *)

(** A header of the request as sent: the caller's, else the default. *)
Lemma merged_header_lookup (caller : gmap string string) (name : string) :
  (caller ∪ default_headers) !! name
  = match caller !! name with
    | Some v => Some v
    | None => default_headers !! name
    end.
Proof.
  rewrite lookup_union.
  by destruct (caller !! name), (default_headers !! name).
Qed.

(** X14.  In the options [apiRequest] sends, the caller wins: each header of
    the caller is sent as given, the two default headers fill in only the
    names the caller left out, the timeout and [failOnStatusCode] of the
    caller are kept and default to 30000 and false; merging merged options
    changes nothing. *)
Theorem mergedOptions_caller_wins (options : request_options) :
  (exists headers,
     req_headers (mergedOptions options) = Some headers
     /\ forall name,
          headers !! name
          = match default ∅ (req_headers options) !! name with
            | Some v => Some v
            | None => default_headers !! name
            end)
  /\ req_timeout (mergedOptions options)
     = Some (default 30000 (req_timeout options))
  /\ req_failOnStatusCode (mergedOptions options)
     = Some (default false (req_failOnStatusCode options))
  /\ mergedOptions (mergedOptions options) = mergedOptions options.
Proof.
  split; [| split; [done | split; [done |]]].
  - eexists. split; [reflexivity |]. intros name. apply merged_header_lookup.
  - unfold mergedOptions. simpl. f_equal. f_equal.
    apply map_eq. intros name. rewrite !lookup_union.
    by destruct (_ !! name), (default_headers !! name).
Qed.

Lemma apiRequestWithToken_run (h : Host) (options : request_options)
  (token : value) (w : World) :
  req_failOnStatusCode options <> Some true ->
  exists sent headers m1 m2,
    apiRequestWithToken h options token w
    = (Ok (respond h (count is_request (trace w)) sent),
       {| locatorCache := locatorCache w;
          trace := trace w ++ [EvRequest sent; EvTask "log" m1;
                               EvTask "log" m2] |})
    /\ req_headers sent = Some headers
    /\ headers !! "Authorization" = Some ("Bearer " +:+ to_string token)
    /\ (forall name, name <> "Authorization" ->
          headers !! name
          = match default ∅ (req_headers options) !! name with
            | Some v => Some v
            | None => default_headers !! name
            end)
    /\ req_url sent = req_url options
    /\ req_method sent = req_method options
    /\ req_body sent = req_body options.
Proof.
  intros Hf. unfold apiRequestWithToken.
  rewrite apiRequest_ok by done. cbv zeta.
  do 4 eexists. split; [reflexivity |]. split; [reflexivity |]. simpl.
  split; [| split; [| done]].
  - by rewrite merged_header_lookup, lookup_insert_eq.
  - intros name Hne. rewrite merged_header_lookup.
    by rewrite lookup_insert_ne.
Qed.

(** X15.  [apiRequestWithToken] sends one request, to the caller's URL with
    the caller's method and body, whose [Authorization] header is
    ['Bearer ' + token] whatever the caller put under that name; the other
    headers are the caller's, with the defaults for the names left out.  The
    token goes through a template literal: a token that is [undefined] is
    sent as ['Bearer undefined']. *)
Theorem apiRequestWithToken_sends_bearer
  (h : Host) (options : request_options) (token : value) (w : World) :
  req_failOnStatusCode options <> Some true ->
  exists sent headers m1 m2,
    apiRequestWithToken h options token w
    = (Ok (respond h (count is_request (trace w)) sent),
       {| locatorCache := locatorCache w;
          trace := trace w ++ [EvRequest sent; EvTask "log" m1;
                               EvTask "log" m2] |})
    /\ req_headers sent = Some headers
    /\ headers !! "Authorization" = Some ("Bearer " +:+ to_string token)
    /\ (forall name, name <> "Authorization" ->
          headers !! name
          = match default ∅ (req_headers options) !! name with
            | Some v => Some v
            | None => default_headers !! name
            end)
    /\ req_url sent = req_url options
    /\ req_method sent = req_method options
    /\ req_body sent = req_body options.
Proof. apply apiRequestWithToken_run. Qed.

Lemma apiRequestWithToken_sends_bearer_witness :
  exists sent headers w',
    (apiRequestWithToken sample_host get_users VUndefined fresh_world).2 = w'
    /\ trace w' !! 0%nat = Some (EvRequest sent)
    /\ req_headers sent = Some headers
    /\ headers !! "Authorization" = Some "Bearer undefined".
Proof.
  destruct (apiRequestWithToken_sends_bearer sample_host get_users VUndefined
              fresh_world) as (sent & headers & m1 & m2 & Hrun & Hh & Ha & _);
    [discriminate |].
  exists sent, headers. eexists. split; [reflexivity |].
  rewrite Hrun. by repeat split.
Defined.

(** X16.  The token store and its guard.  [getStoredAuthToken] returns what
    [storeAuthToken] stored.  [authenticatedRequest] never sends a request
    without a token: when none is stored, or the stored one is falsy, it
    throws and issues no command; with a token it is [apiRequestWithToken]
    with that token.  The command [apiRequestWithToken] of the support file
    has no such guard: with nothing stored it sends ['Bearer undefined']. *)
Theorem authenticatedRequest_requires_token
  (h : Host) (env : gmap string value) (options : request_options) (w : World) :
  (forall token, getStoredAuthToken (storeAuthToken token env) = token)
  /\ (truthy (getStoredAuthToken env) = false ->
      authenticatedRequest h env options w
      = (Throw (Error "No auth token stored. Please login first."), w))
  /\ (truthy (getStoredAuthToken env) = true ->
      authenticatedRequest h env options w
      = apiRequestWithToken h options (getStoredAuthToken env) w)
  /\ (env !! "authToken" = None ->
      req_failOnStatusCode options <> Some true ->
      exists sent headers r w',
        cmd_apiRequestWithToken h env options w = (Ok r, w')
        /\ count is_request (trace w') = S (count is_request (trace w))
        /\ EvRequest sent ∈ trace w'
        /\ req_headers sent = Some headers
        /\ headers !! "Authorization" = Some "Bearer undefined").
Proof.
  split; [| split; [| split]].
  - intros token. unfold getStoredAuthToken, storeAuthToken.
    by rewrite lookup_insert_eq.
  - unfold authenticatedRequest. by intros ->.
  - unfold authenticatedRequest. by intros ->.
  - intros Hnone Hf. unfold cmd_apiRequestWithToken. rewrite Hnone. simpl.
    destruct (apiRequestWithToken_run h options VUndefined w Hf)
      as (sent & headers & m1 & m2 & Hrun & Hh & Ha & _).
    exists sent, headers. do 2 eexists. split; [exact Hrun |]. simpl.
    split; [| split; [| by split]].
    + rewrite count_app. unfold count. simpl. lia.
    + apply elem_of_app. right. apply elem_of_cons. by left.
Qed.

Lemma authenticatedRequest_requires_token_witness :
  authenticatedRequest sample_host ∅ get_users fresh_world
  = (Throw (Error "No auth token stored. Please login first."), fresh_world)
  /\ authenticatedRequest sample_host (storeAuthToken (VStr "") ∅) get_users
       fresh_world
     = (Throw (Error "No auth token stored. Please login first."), fresh_world)
  /\ (authenticatedRequest sample_host (storeAuthToken (VStr "abc") ∅)
        get_users fresh_world).1
     = Ok {| status := 503; body := VObj ∅ |}.
Proof.
  split; [| split].
  - apply (authenticatedRequest_requires_token sample_host ∅ get_users
             fresh_world). reflexivity.
  - apply (authenticatedRequest_requires_token sample_host
             (storeAuthToken (VStr "") ∅) get_users fresh_world). reflexivity.
  - rewrite (proj1 (proj2 (proj2 (authenticatedRequest_requires_token
               sample_host (storeAuthToken (VStr "abc") ∅) get_users
               fresh_world)))); reflexivity.
Defined.

(** ** errorHandler: safeType and withErrorHandling *)

(** X17.  [safeType] probes as [safeClick] does: for the same selector and
    page the two succeed together and fail with the same error.  When it
    succeeds it types the text once, after clearing the field once unless
    the caller passed [clear: false]; when it fails it types and clears
    nothing. *)
Theorem safeType_types_after_probe
  (h : Host) (selector text : string) (options : type_options) :
  (forall (o : click_options) (w : World),
     (safeType h selector text options).1 = (safeClick h selector o w).1)
  /\ typed (safeType h selector text options).2
     = match (safeType h selector text options).1 with
       | Ok _ => [text]
       | Throw _ => []
       end
  /\ clears (safeType h selector text options).2
     = match (safeType h selector text options).1, topt_clear options with
       | Ok _, Some false => 0%nat
       | Ok _, _ => 1%nat
       | Throw _, _ => 0%nat
       end.
Proof.
  unfold safeType. split; [| split].
  - intros o w. rewrite safeClick_unfold. cbv zeta.
    destruct (css_count h selector) as [n | e]; [| done].
    by case_bool_decide.
  - destruct (css_count h selector) as [n | e]; [| done].
    case_bool_decide; [| done]. simpl.
    by destruct (default true (topt_clear options)).
  - destruct (css_count h selector) as [n | e]; [| done].
    case_bool_decide; [| done]. simpl.
    by destruct (topt_clear options) as [[|] |].
Qed.

Lemma executeAction_step {A : Type} (runner_message : js_error -> string)
  (clock : Clock) (action : nat -> outcome A) (context : string)
  (shouldThrow : bool) (retries retryDelay attempts : Z) (calls : nat) :
  executeAction runner_message clock action context shouldThrow retries
                retryDelay attempts calls
  = match action calls with
    | Ok a => (Ok (Some a), [Issued EvCall])
    | Throw error =>
        if decide (attempts + 1 <= retries) then
          let rest := executeAction runner_message clock action context
                        shouldThrow retries retryDelay (attempts + 1)
                        (S calls) in
          (rest.1, Issued EvCall :: Issued (EvWait retryDelay) :: rest.2)
        else
          (if shouldThrow then Throw error else Ok None,
           Issued EvCall
             :: (handleError runner_message clock error context
                             shouldThrow).2)
    end.
Proof.
  etrans; [apply executeAction_unfold_eq |]. unfold executeAction_unfold.
  destruct (action calls) as [a | error]; simpl; [done |].
  destruct (decide (attempts + 1 <= retries)); [done |].
  by destruct shouldThrow.
Qed.

Lemma executeAction_outcome {A : Type} (runner_message : js_error -> string)
  (clock : Clock) (action : nat -> outcome A) (context : string)
  (shouldThrow : bool) (retries retryDelay : Z) (n : nat) :
  forall (attempts : Z) (calls : nat),
    Z.to_nat (retries - attempts) = n ->
    exists k : nat,
      (k <= n)%nat
      /\ (forall i, (i < k)%nat -> exists e, action (calls + i)%nat = Throw e)
      /\ match action (calls + k)%nat with
         | Ok a =>
             executeAction runner_message clock action context shouldThrow
                           retries retryDelay attempts calls
             = (Ok (Some a), Issued <$> retry_events retryDelay k)
         | Throw e =>
             k = n
             /\ executeAction runner_message clock action context shouldThrow
                              retries retryDelay attempts calls
                = (if shouldThrow then Throw e else Ok None,
                   (Issued <$> retry_events retryDelay k)
                     ++ (handleError runner_message clock e context
                                     shouldThrow).2)
         end.
Proof.
  induction n as [|n IH]; intros attempts calls Hn.
  - exists 0%nat. split; [lia |]. split; [lia |].
    rewrite Nat.add_0_r, executeAction_step.
    destruct (action calls) as [a | e]; [done |].
    by rewrite decide_False by lia.
  - destruct (action calls) as [a | e] eqn:Hact.
    + exists 0%nat. split; [lia |]. split; [lia |].
      rewrite Nat.add_0_r, Hact, executeAction_step. by rewrite Hact.
    + destruct (IH (attempts + 1) (S calls)) as (k & Hk & Hrej & Hlast);
        [lia |].
      exists (S k). split; [lia |]. split.
      * intros [|i] Hi; [exists e; by rewrite Nat.add_0_r |].
        replace (calls + S i)%nat with (S calls + i)%nat by lia.
        apply Hrej. lia.
      * replace (calls + S k)%nat with (S calls + k)%nat by lia.
        rewrite executeAction_step, Hact, decide_True by lia. cbv zeta.
        destruct (action (S calls + k)%nat) as [a | e'].
        -- by rewrite Hlast.
        -- destruct Hlast as [-> ->]. by split.
Qed.

(** X18.  [withErrorHandling] calls the action until a call returns or
    [max 0 retries + 1] calls have thrown, with one wait of [retryDelay]
    after each throwing call but the last.  When a call returns, its value
    is the result and nothing is logged.  When all calls threw,
    [handleError] runs once, on the error of the last call (the errors of
    the earlier calls are dropped), and the error is thrown again; or, when
    [shouldThrow] is false, swallowed, and the caller gets [undefined]. *)
Theorem withErrorHandling_outcome {A : Type}
  (runner_message : js_error -> string) (clock : Clock)
  (action : nat -> outcome A) (context : string) (options : handling_options) :
  let shouldThrow := default true (hopt_shouldThrow options) in
  let retries := default 0 (hopt_retries options) in
  let retryDelay := default 1000 (hopt_retryDelay options) in
  exists k : nat,
    (k <= Z.to_nat retries)%nat
    /\ (forall i, (i < k)%nat -> exists e, action i = Throw e)
    /\ match action k with
       | Ok a =>
           withErrorHandling runner_message clock action context options
           = (Ok (Some a), Issued <$> retry_events retryDelay k)
       | Throw e =>
           k = Z.to_nat retries
           /\ withErrorHandling runner_message clock action context options
              = (if shouldThrow then Throw e else Ok None,
                 (Issued <$> retry_events retryDelay k)
                   ++ (handleError runner_message clock e context
                                   shouldThrow).2)
       end.
Proof.
  intros shouldThrow retries retryDelay.
  destruct (executeAction_outcome runner_message clock action context
              shouldThrow retries retryDelay (Z.to_nat retries) 0 0%nat)
    as (k & Hk & Hrej & Hlast); [f_equal; lia |].
  exists k. split; [exact Hk |]. split; [exact Hrej |]. exact Hlast.
Qed.

(** ** apiHelper: tokens and assertions on responses *)

(** X19.  [getAuthToken] sends one POST with the credentials as body and
    decides on the response alone.  A status other than 200 fails the status
    assertion, whatever the body holds.  With status 200 and a body that is
    not [null], the token is the first truthy value among the properties
    [token], [accessToken] and [access_token], in this order; when none is
    truthy (an empty string counts as none) the error is
    ['No token found in login response']. *)
Theorem getAuthToken_token_precedence
  (h : Host) (loginUrl : string) (credentials : value) (w : World) :
  exists (r : response) (w' : World),
    post h loginUrl credentials None w = (Ok r, w')
    /\ count is_request (trace w') = S (count is_request (trace w))
    /\ getAuthToken h loginUrl credentials w = (token_of_response r, w')
    /\ (status r <> 200 ->
        token_of_response r
        = Fail (Asserted (ExpectedEq (VNum (status r)) (VNum 200))))
    /\ (status r = 200 ->
        forall a b c,
          js_get (body r) "token" = Ok a ->
          js_get (body r) "accessToken" = Ok b ->
          js_get (body r) "access_token" = Ok c ->
          token_of_response r
          = match List.find truthy [a; b; c] with
            | Some token => Pass token
            | None =>
                Fail (Raised (Error "No token found in login response"))
            end).
Proof.
  unfold getAuthToken, post. rewrite apiRequest_ok by done. cbv zeta.
  do 2 eexists. split; [reflexivity |]. split; [| split; [reflexivity |]].
  - simpl. rewrite count_app. unfold count. simpl. lia.
  - set (r := respond h _ _). clearbody r. split.
    + intros Hs. unfold token_of_response, validateStatus, expect_eq. simpl.
      by rewrite (proj2 (Z.eqb_neq _ _) Hs).
    + intros Hs a b c Ha Hb Hc.
      unfold token_of_response, validateStatus, expect_eq. simpl.
      rewrite Hs, Ha, Hb, Hc. simpl.
      destruct (truthy a) eqn:Hta; simpl; [by rewrite Hta |].
      destruct (truthy b) eqn:Htb; simpl; [by rewrite Htb |].
      by destruct (truthy c).
Qed.







(** ** The login command and the token store *)

(** X22.  The callback of [loginViaApi] fails on every status but 200 and
    then stores nothing.  On status 200 it stores the first truthy value of
    [token] and [accessToken], and sets the cookie to it; it does not look
    at [access_token].  So for a response that carries its token under
    [access_token] only, the login succeeds and stores nothing, a following
    [authenticatedRequest] throws for want of a token, and yet
    [getAuthToken]'s callback accepts the same response with that token. *)
Theorem loginViaApi_ignores_access_token
  (r : response) (env : gmap string value) :
  (status r <> 200 ->
   loginViaApi_then r env
   = (Throw (Error ("Login failed with status: " +:+ pretty (status r))),
      env, []))
  /\ (status r = 200 ->
      forall a b,
        js_get (body r) "token" = Ok a ->
        js_get (body r) "accessToken" = Ok b ->
        (loginViaApi_then r env).1.1 = Ok r
        /\ (loginViaApi_then r env).1.2
           = match List.find truthy [a; b] with
             | Some token => <["authToken" := token]> env
             | None => env
             end)
  /\ (status r = 200 ->
      forall c,
        js_get (body r) "token" = Ok VUndefined ->
        js_get (body r) "accessToken" = Ok VUndefined ->
        js_get (body r) "access_token" = Ok c ->
        truthy c = true ->
        env !! "authToken" = None ->
        token_of_response r = Pass c
        /\ (loginViaApi_then r env).1.1 = Ok r
        /\ forall h options w,
             authenticatedRequest h (loginViaApi_then r env).1.2 options w
             = (Throw (Error "No auth token stored. Please login first."), w)).
Proof.
  unfold loginViaApi_then. split; [| split].
  - intros Hs. by rewrite (proj2 (Z.eqb_neq _ _) Hs).
  - intros -> a b Ha Hb. simpl. rewrite Ha. simpl.
    destruct (truthy a) eqn:Hta; simpl; [by rewrite Hta |].
    rewrite Hb. by destruct (truthy b).
  - intros Hs c Ha Hb Hc Htc Henv. rewrite Hs. simpl.
    rewrite Ha. simpl. rewrite Hb. simpl. split; [| split; [done |]].
    + unfold token_of_response, validateStatus, expect_eq. simpl.
      rewrite Hs, Ha, Hb, Hc. simpl. by rewrite Htc.
    + intros h options w. unfold authenticatedRequest, getStoredAuthToken.
      by rewrite Henv.
Qed.

Lemma loginViaApi_ignores_access_token_witness :
  token_of_response
    {| status := 200; body := VObj {[ "access_token" := VStr "t0k" ]} |}
  = Pass (VStr "t0k")
  /\ authenticatedRequest sample_host
       (loginViaApi_then
          {| status := 200; body := VObj {[ "access_token" := VStr "t0k" ]} |}
          ∅).1.2
       get_users fresh_world
     = (Throw (Error "No auth token stored. Please login first."),
        fresh_world).
Proof.
  destruct (proj2 (proj2 (loginViaApi_ignores_access_token
              {| status := 200;
                 body := VObj {[ "access_token" := VStr "t0k" ]} |} ∅))
              eq_refl (VStr "t0k"))
    as (Htok & _ & Hauth); try reflexivity.
  split; [exact Htok | apply Hauth].
Defined.
